(** * Chat.tsx: the submission pipeline of the chat component

    A shallow embedding of [src/components/Chat.tsx].  The component keeps
    four pieces of React state ([messages], [input], [selectedFile],
    [isLoading]) and one DOM reference ([fileInputRef]).  Its only
    non-trivial code is the asynchronous handler [handleSubmit], which is
    embedded here in a small state-and-exception monad, split at its first
    [await] into the part that runs when the form is submitted and the part
    that runs when the network call settles. *)

From Stdlib Require Import String Ascii List Bool NArith Arith Lia.
From Stdlib Require Import DecimalString DecimalN.
Import ListNotations.
Local Open Scope string_scope.
Local Open Scope list_scope.

(* ===================================================================== *)
(** ** JavaScript strings

    Strings are modelled as Rocq strings holding the UTF-8 encoding of the
    text.  Concatenation and emptiness agree with JavaScript on every
    well-formed string. *)

Definition bytes (l : list nat) : list ascii := map ascii_of_nat l.

(** The code points removed by [String.prototype.trim]: ECMAScript
    WhiteSpace (TAB, VT, FF, U+FEFF and the category Zs) and LineTerminator
    (LF, CR, U+2028, U+2029), each as its UTF-8 encoding. *)
Definition WhiteSpace : list (list ascii) :=
  [ bytes [9]; bytes [10]; bytes [11]; bytes [12]; bytes [13]; bytes [32];
    bytes [194; 160];        (* U+00A0 *)
    bytes [225; 154; 128];   (* U+1680 *)
    bytes [226; 128; 128]; bytes [226; 128; 129]; bytes [226; 128; 130];
    bytes [226; 128; 131]; bytes [226; 128; 132]; bytes [226; 128; 133];
    bytes [226; 128; 134]; bytes [226; 128; 135]; bytes [226; 128; 136];
    bytes [226; 128; 137]; bytes [226; 128; 138];   (* U+2000 .. U+200A *)
    bytes [226; 128; 168]; bytes [226; 128; 169];   (* U+2028, U+2029 *)
    bytes [226; 128; 175];   (* U+202F *)
    bytes [226; 129; 159];   (* U+205F *)
    bytes [227; 128; 128];   (* U+3000 *)
    bytes [239; 187; 191]    (* U+FEFF *) ].

Fixpoint strip_prefix (p l : list ascii) : option (list ascii) :=
  match p, l with
  | [], _ => Some l
  | a :: p', b :: l' => if Ascii.eqb a b then strip_prefix p' l' else None
  | _ :: _, [] => None
  end.

Fixpoint strip_any (table : list (list ascii)) (l : list ascii)
  : option (list ascii) :=
  match table with
  | [] => None
  | p :: table' =>
      match strip_prefix p l with
      | Some rest => Some rest
      | None => strip_any table' l
      end
  end.

(** Drops leading white space; every round removes at least one byte, so
    [length l] rounds are enough. *)
Fixpoint drop_space (table : list (list ascii)) (fuel : nat) (l : list ascii)
  : list ascii :=
  match fuel with
  | O => l
  | S fuel' =>
      match strip_any table l with
      | Some rest => drop_space table fuel' rest
      | None => l
      end
  end.

Definition trimStart (l : list ascii) : list ascii :=
  drop_space WhiteSpace (length l) l.

Definition trimEnd (l : list ascii) : list ascii :=
  rev (drop_space (map (@rev ascii) WhiteSpace) (length l) (rev l)).

(** [s.trim()] *)
Definition trim (s : string) : string :=
  string_of_list_ascii (trimEnd (trimStart (list_ascii_of_string s))).

(** Truthiness of a string value: every string but the empty one. *)
Definition truthy (s : string) : bool :=
  match s with EmptyString => false | String _ _ => true end.

(** Truthiness of a property that may be [undefined]. *)
Definition truthy_opt (o : option string) : bool :=
  match o with Some s => truthy s | None => false end.

(** [x || d] on a possibly-undefined string. *)
Definition or_else (o : option string) (d : string) : string :=
  match o with
  | Some s => if truthy s then s else d
  | None => d
  end.

(** String conversion inside a template literal. *)
Definition template_arg (o : option string) : string :=
  match o with Some s => s | None => "undefined" end.

(** [n.toString()] for a non-negative integer. *)
Definition toString (n : N) : string :=
  NilEmpty.string_of_uint (N.to_uint n).

(* ===================================================================== *)
(** ** Data model *)

Inductive Sender := user | bot.

(** [interface Message]; [timestamp] is a [Date], kept as its
    millisecond value. *)
Record Message := mkMessage {
  id : string;
  text : string;
  sender : Sender;
  timestamp : N;
  imageUrl : option string
}.

Record File := mkFile { name : string; content : string }.

Inductive FormDataEntryValue :=
| FormString (s : string)
| FormFile (f : File).

(** A [FormData] is an ordered list of entries; [append] adds at the end. *)
Definition FormData := list (string * FormDataEntryValue).

Definition FormData_append (k : string) (v : FormDataEntryValue)
  (fd : FormData) : FormData := fd ++ [(k, v)].

Definition FormData_has (k : string) (fd : FormData) : bool :=
  existsb (fun e => String.eqb (fst e) k) fd.

Definition FormData_get (k : string) (fd : FormData)
  : option FormDataEntryValue :=
  option_map snd (find (fun e => String.eqb (fst e) k) fd).

Record Request := mkRequest {
  url : string;
  method : string;
  body : FormData
}.

(** The recognised fields of the response body, each an optional string. *)
Record ResponseData := mkResponseData {
  response : option string;
  annotated_image_url : option string;
  error : option string
}.

(** What [res.json()] resolves to: the JSON value [null], on which every
    property read throws, or a value whose properties can be read.  The
    three recognised fields are read at the type the component declares
    for them (strings). *)
Inductive Data :=
| DataNull
| DataObject (r : ResponseData).

Definition Exn := string.

(** How the two awaited promises of [handleSubmit] settle. *)
Inductive Reply :=
| FetchRejected (err : Exn)
| JsonRejected (err : Exn)
| JsonResolved (data : Data).

(** The two clock reads of one synchronous run. *)
Record Clock := mkClock { Date_now : N; new_Date : N }.

(** React state of the component. *)
Record State := mkState {
  messages : list Message;
  input : string;
  selectedFile : option File;
  isLoading : bool
}.

(** Observable effects, in the order the code performs them. *)
Inductive Effect :=
| PreventDefault
| DidSetMessages (prev next : list Message)
| DidSetInput (s : string)
| DidSetIsLoading (b : bool)
| DidSetSelectedFile (f : option File)
| DidFetch (r : Request)
| DidConsoleError (label : string) (err : Exn)
| DidResetFileInput.

(** The component instance: its React state, the [value] of the file
    picker that [fileInputRef.current] points to ([None] when the
    reference is null) and the effects performed so far. *)
Record World := mkWorld {
  react : State;
  fileInputRef : option string;
  trace : list Effect
}.


(* ===================================================================== *)
(** ** A state-and-exception monad for the handler's code *)

Inductive Completion (A : Type) :=
| Normal (a : A)
| Throw (e : Exn).
Arguments Normal {A} a.
Arguments Throw {A} e.

Definition JS (A : Type) := World -> Completion A * World.

Definition ret {A} (a : A) : JS A := fun w => (Normal a, w).

Definition throw {A} (e : Exn) : JS A := fun w => (Throw e, w).

Definition bind {A B} (m : JS A) (k : A -> JS B) : JS B :=
  fun w =>
    match m w with
    | (Normal a, w') => k a w'
    | (Throw e, w') => (Throw e, w')
    end.

Declare Scope js_scope.
Delimit Scope js_scope with js.
Notation "x <- m ;; k" := (bind m (fun x => k))
  (at level 61, m at next level, right associativity) : js_scope.
Notation "m ;; k" := (bind m (fun _ => k))
  (at level 61, right associativity) : js_scope.
Local Open Scope js_scope.

(** [try { body } catch (error) { handler } finally { finalizer }]: the
    finalizer runs on every path; the statement completes as the body (or,
    after a throw, the handler) did, unless the finalizer itself throws. *)
Definition try_catch_finally (body : JS unit) (handler : Exn -> JS unit)
  (finalizer : JS unit) : JS unit :=
  fun w =>
    let '(c1, w1) := body w in
    let '(c2, w2) :=
      match c1 with
      | Normal a => (Normal a, w1)
      | Throw e => handler e w1
      end in
    let '(c3, w3) := finalizer w2 in
    match c3 with
    | Normal _ => (c2, w3)
    | Throw e => (Throw e, w3)
    end.

Definition log (e : Effect) : JS unit :=
  fun w => (Normal tt, mkWorld (react w) (fileInputRef w) (trace w ++ [e])).

(** A state setter.  React applies the queued updates in call order
    before the next event is handled, and the handler never reads the
    state back (it only uses the values its closure captured), so applying
    each update at once gives the same states between events. *)
Definition update (f : State -> State) : JS unit :=
  fun w => (Normal tt, mkWorld (f (react w)) (fileInputRef w) (trace w)).

Definition current : JS State := fun w => (Normal (react w), w).

(** [e.preventDefault()] acts on the event object only. *)
Definition preventDefault : JS unit := log PreventDefault.

(** [setMessages(updater)]: a functional update of the latest state. *)
Definition setMessages (updater : list Message -> list Message) : JS unit :=
  st <- current ;;
  log (DidSetMessages (messages st) (updater (messages st))) ;;
  update (fun st => mkState (updater (messages st)) (input st)
                            (selectedFile st) (isLoading st)).

Definition setInput (s : string) : JS unit :=
  log (DidSetInput s) ;;
  update (fun st => mkState (messages st) s (selectedFile st) (isLoading st)).

Definition setSelectedFile (f : option File) : JS unit :=
  log (DidSetSelectedFile f) ;;
  update (fun st => mkState (messages st) (input st) f (isLoading st)).

Definition setIsLoading (b : bool) : JS unit :=
  log (DidSetIsLoading b) ;;
  update (fun st => mkState (messages st) (input st) (selectedFile st) b).

(** [fetch(url, { method, body })]: issues the request. *)
Definition fetch (u : string) (m : string) (b : FormData) : JS Request :=
  let r := mkRequest u m b in
  log (DidFetch r) ;; ret r.

Definition console_error (label : string) (err : Exn) : JS unit :=
  log (DidConsoleError label err).

(** [if (fileInputRef.current) fileInputRef.current.value = ""] *)
Definition reset_fileInput : JS unit :=
  fun w =>
    match fileInputRef w with
    | Some _ =>
        (Normal tt,
         mkWorld (react w) (Some "") (trace w ++ [DidResetFileInput]))
    | None => (Normal tt, w)
    end.

(** The promise chain [await fetch(...)], [await res.json()]. *)
Definition await_json (reply : Reply) : JS Data :=
  match reply with
  | FetchRejected err => throw err
  | JsonRejected err => throw err
  | JsonResolved data => ret data
  end.

(** A property read [data.p]; reading a property of [null] throws. *)
Definition prop (data : Data) (p : ResponseData -> option string)
  : JS (option string) :=
  match data with
  | DataNull => throw "TypeError: Cannot read properties of null"
  | DataObject r => ret (p r)
  end.

(* ===================================================================== *)
(** ** The component *)

(** The message seeded by [useState<Message[]>([...])]. *)
Definition welcome (date : N) : Message :=
  mkMessage "1"
    "👋 I'm here to help analyze X-ray images and provide orthopedic suggestions. Upload an image or ask your query."
    bot date None.

(** State after the first render: the picker is mounted and empty. *)
Definition mount (date : N) : World :=
  mkWorld (mkState [welcome date] "" None false) (Some "") [].

Definition isSome {A} (o : option A) : bool :=
  match o with Some _ => true | None => false end.

(** [if (!input.trim() && !selectedFile) return;] *)
Definition rejected (render : State) : bool :=
  negb (truthy (trim (input render))) && negb (isSome (selectedFile render)).

(** Lines 47-49: the multipart payload. *)
Definition build_formData (render : State) : FormData :=
  let formData : FormData := [] in
  let formData :=
    if truthy (trim (input render))
    then FormData_append "message" (FormString (input render)) formData
    else formData in
  let formData :=
    match selectedFile render with
    | Some f => FormData_append "image" (FormFile f) formData
    | None => formData
    end in
  formData.

Definition userMessage (render : State) (clk : Clock) : Message :=
  mkMessage (toString (Date_now clk) ++ "-user")%string
            (input render) user (new_Date clk) None.

(** [handleSubmit] from its entry to the first [await]: [render] holds the
    values of [input] and [selectedFile] that the closure captured.  The
    result is the request left in flight, or [None] after the early
    return. *)
Definition handleSubmit_dispatch (render : State) (clk : Clock)
  : JS (option Request) :=
  preventDefault ;;
  if rejected render then ret None
  else
    setMessages (fun prev => prev ++ [userMessage render clk]) ;;
    setInput "" ;;
    let formData := build_formData render in
    setIsLoading true ;;
    setSelectedFile None ;;
    r <- fetch "http://localhost:5000/chat" "POST" formData ;;
    ret (Some r).

Definition botMessage (r u : option string) (clk : Clock) : Message :=
  mkMessage (toString (Date_now clk) ++ "-bot")%string
            (or_else r "") bot (new_Date clk) u.

Definition errorMessage (e : option string) (clk : Clock) : Message :=
  mkMessage (toString (Date_now clk) ++ "-error")%string
            ("⚠ Error: " ++ template_arg e)%string bot (new_Date clk) None.

Definition fetchErrorMessage (clk : Clock) : Message :=
  mkMessage (toString (Date_now clk) ++ "-fetch-error")%string
            "⚠ Failed to connect to the server." bot (new_Date clk) None.

(** Lines 55-78, resumed with the settlement of the two promises. *)
Definition try_block (reply : Reply) (clk : Clock) : JS unit :=
  data <- await_json reply ;;
  r <- prop data response ;;
  success <- (if truthy_opt r then ret true
              else (u <- prop data annotated_image_url ;;
                    ret (truthy_opt u))) ;;
  if success : bool then
    r <- prop data response ;;
    u <- prop data annotated_image_url ;;
    setMessages (fun prev => prev ++ [botMessage r u clk])
  else
    e <- prop data error ;;
    if truthy_opt e then
      e <- prop data error ;;
      setMessages (fun prev => prev ++ [errorMessage e clk])
    else ret tt.

(** Lines 80-87. *)
Definition catch_block (clk : Clock) (err : Exn) : JS unit :=
  console_error "Fetch error:" err ;;
  setMessages (fun prev => prev ++ [fetchErrorMessage clk]).

(** Lines 88-93. *)
Definition finally_block : JS unit :=
  setIsLoading false ;;
  reset_fileInput.

(** [handleSubmit] from the first [await] to its end. *)
Definition handleSubmit_resume (reply : Reply) (clk : Clock) : JS unit :=
  try_catch_finally (try_block reply clk) (catch_block clk) finally_block.

(** The whole handler when nothing else happens while it is suspended. *)
Definition handleSubmit (render : State) (clk1 : Clock) (reply : Reply)
  (clk2 : Clock) : JS unit :=
  o <- handleSubmit_dispatch render clk1 ;;
  match o with
  | None => ret tt
  | Some _ => handleSubmit_resume reply clk2
  end.

(** [onChange={(e) => setInput(e.target.value)}] *)
Definition onChange_input (value : string) : JS unit := setInput value.

(** [onChange={(e) => setSelectedFile(e.target.files?.[0] || null)}] *)
Definition onChange_file (files : list File) : JS unit :=
  setSelectedFile (hd_error files).

(** What the browser does to the picker before it fires [onChange]. *)
Definition browser_pick (files : list File) (w : World) : World :=
  match fileInputRef w with
  | Some _ =>
      mkWorld (react w)
        (Some match files with
              | f :: _ => ("C:\fakepath\" ++ name f)%string
              | [] => ""
              end)
        (trace w)
  | None => w
  end.

(* ===================================================================== *)
(** ** The event loop *)

Record System := mkSystem {
  world : World;
  inflight : list Request
}.

Inductive Event :=
| TypeText (value : string)
| ChooseFile (files : list File)
| Submit (clk : Clock)
| Settle (reply : Reply) (clk : Clock).

(** One turn of the event loop.  The submit control carries
    [disabled={isLoading}], so no submit event is delivered while the flag
    is set; a settlement needs a request in flight. *)
Definition step (e : Event) (s : System) : option System :=
  match e with
  | TypeText v =>
      Some (mkSystem (snd (onChange_input v (world s))) (inflight s))
  | ChooseFile files =>
      Some (mkSystem (snd (onChange_file files (browser_pick files (world s))))
                     (inflight s))
  | Submit clk =>
      if isLoading (react (world s)) then None
      else
        match handleSubmit_dispatch (react (world s)) clk (world s) with
        | (Normal (Some r), w') => Some (mkSystem w' (inflight s ++ [r]))
        | (_, w') => Some (mkSystem w' (inflight s))
        end
  | Settle reply clk =>
      match inflight s with
      | [] => None
      | _ :: rest =>
          Some (mkSystem (snd (handleSubmit_resume reply clk (world s))) rest)
      end
  end.

Fixpoint steps (es : list Event) (s : System) : option System :=
  match es with
  | [] => Some s
  | e :: es' =>
      match step e s with
      | Some s' => steps es' s'
      | None => None
      end
  end.

Definition start (date : N) : System := mkSystem (mount date) [].

(** The network calls issued so far. *)
Fixpoint requests (t : list Effect) : list Request :=
  match t with
  | [] => []
  | DidFetch r :: t' => r :: requests t'
  | _ :: t' => requests t'
  end.


(** The four ways a settlement can go, in the vocabulary of the
    component's description: a success reply, a server-declared error, a
    transport or parse failure, and a body with none of the recognised
    fields. *)
Inductive Outcome := Success | ServerError | TransportFailure | SilentDrop.

Definition classify (reply : Reply) : Outcome :=
  match reply with
  | FetchRejected _ | JsonRejected _ | JsonResolved DataNull =>
      TransportFailure
  | JsonResolved (DataObject r) =>
      if truthy_opt (response r) || truthy_opt (annotated_image_url r)
      then Success
      else if truthy_opt (error r) then ServerError else SilentDrop
  end.

(** The exception the awaited promise chain throws, if any. *)
Definition thrown (reply : Reply) : option Exn :=
  match reply with
  | FetchRejected err | JsonRejected err => Some err
  | JsonResolved _ => None
  end.

(** Every [setMessages] call recorded in a trace appended one message. *)
Definition appends_one (e : Effect) : Prop :=
  match e with
  | DidSetMessages prev next => exists m, next = prev ++ [m]
  | _ => True
  end.

(** [e1] is performed before [e2] in the trace [t]. *)
Definition before (e1 e2 : Effect) (t : list Effect) : Prop :=
  exists t1 t2 t3, t = t1 ++ e1 :: t2 ++ e2 :: t3.

(** Sample inputs used by the concrete runs below. *)
Definition xray : File := mkFile "xray.png" "PNG".

Definition empty_object : Reply :=
  JsonResolved (DataObject (mkResponseData None None None)).

Definition error_reply (m : string) : Reply :=
  JsonResolved (DataObject (mkResponseData None None (Some m))).

(** A freshly mounted component in which the user typed [s] and picked
    [f]. *)
Definition drafted (s : string) (f : option File) : World :=
  mkWorld (mkState [welcome 0] s f false)
          (Some match f with
                | Some x => ("C:\fakepath\" ++ name x)%string
                | None => ""
                end)
          [].

(** One full round: the user types "hi" and submits, and the server
    answers with a declared error. *)
Definition one_round : list Event :=
  [TypeText "hi"; Submit (mkClock 1 1);
   Settle (error_reply "bad image") (mkClock 2 2)].

Definition after_one_round : System :=
  mkSystem (snd (handleSubmit (react (drafted "hi" None)) (mkClock 1 1)
                   (error_reply "bad image") (mkClock 2 2)
                   (snd (onChange_input "hi" (mount 0)))))
           [].

(* ===================================================================== *)
(** ** The rendered view

    The JSX returned by [Chat], reduced to what depends on the state: one
    bubble per message, the typing indicator, the submit control and the
    label of the selected file.  The colour classes of the inner element,
    which repeat the sender test of the row, and the fixed markup are left
    out. *)

Definition origin : string := "http://localhost:5000".

Definition Sender_eqb (a b : Sender) : bool :=
  match a, b with
  | user, user | bot, bot => true
  | _, _ => false
  end.

(** The text of a bubble: a [<p className="whitespace-pre-wrap">] or a
    [<ReactMarkdown>] element. *)
Inductive TextBlock :=
| Paragraph (s : string)
| Markdown (s : string).

Record Bubble := mkBubble {
  key : string;
  row_class : string;
  block : option TextBlock;
  img_src : option string
}.

(** The body of [messages.map((message) => ...)]. *)
Definition render_message (message : Message) : Bubble :=
  mkBubble
    (id message)
    ("flex " ++ if Sender_eqb (sender message) user
                then "justify-end" else "justify-start")%string
    (if truthy (text message) && Sender_eqb (sender message) user
     then Some (Paragraph (text message))
     else if truthy (text message) && Sender_eqb (sender message) bot
          then Some (Markdown (text message))
          else None)
    (if truthy_opt (imageUrl message)
     then Some (origin ++ template_arg (imageUrl message))%string
     else None).

Record View := mkView {
  bubbles : list Bubble;
  typing_indicator : bool;
  submit_disabled : bool;
  input_value : string;
  file_label : option string
}.

Definition render (st : State) : View :=
  mkView (map render_message (messages st))
         (isLoading st)
         (isLoading st)
         (input st)
         (option_map name (selectedFile st)).

(* ===================================================================== *)
(** ** Vocabulary for the properties of runs *)

Definition count_sender (who : Sender) (l : list Message) : nat :=
  List.length (filter (fun m => Sender_eqb (sender m) who) l).

(** The [Date.now()] readings of the handler runs of a sequence of
    events. *)
Fixpoint clocks_of (es : list Event) : list N :=
  match es with
  | [] => []
  | Submit clk :: es' => Date_now clk :: clocks_of es'
  | Settle _ clk :: es' => Date_now clk :: clocks_of es'
  | _ :: es' => clocks_of es'
  end.

Definition dash : ascii := ascii_of_nat 45.

(** The part of a string before its first dash, if it has one. *)
Fixpoint before_dash (s : string) : option string :=
  match s with
  | EmptyString => None
  | String c r =>
      if Ascii.eqb c dash then Some EmptyString
      else option_map (String c) (before_dash r)
  end.

(** What every message appended by a settlement at clock [clk] looks
    like. *)
Definition reply_message (clk : Clock) (m : Message) : Prop :=
  sender m = bot /\
  (truthy (text m) = true \/ truthy_opt (imageUrl m) = true) /\
  exists suffix,
    id m = (toString (Date_now clk) ++ String dash suffix)%string.

(** A request as the component issues them. *)
Definition well_formed (r : Request) : Prop :=
  url r = "http://localhost:5000/chat" /\
  method r = "POST" /\
  body r <> [] /\
  (forall t, In ("message", FormString t) (body r) -> trim t <> "") /\
  exists t f,
    body r =
      match t with Some x => [("message", FormString x)] | None => [] end ++
      match f with Some x => [("image", FormFile x)] | None => [] end.

(** One turn of the event loop, case by case. *)
Inductive Step (s : System) : Event -> System -> Prop :=
| Step_type v :
    Step s (TypeText v)
      (mkSystem
         (mkWorld (mkState (messages (react (world s))) v
                           (selectedFile (react (world s)))
                           (isLoading (react (world s))))
                  (fileInputRef (world s))
                  (trace (world s) ++ [DidSetInput v]))
         (inflight s))
| Step_choose files :
    Step s (ChooseFile files)
      (mkSystem
         (mkWorld (mkState (messages (react (world s)))
                           (input (react (world s)))
                           (hd_error files)
                           (isLoading (react (world s))))
                  (fileInputRef (browser_pick files (world s)))
                  (trace (world s) ++ [DidSetSelectedFile (hd_error files)]))
         (inflight s))
| Step_reject clk :
    isLoading (react (world s)) = false ->
    rejected (react (world s)) = true ->
    Step s (Submit clk)
      (mkSystem
         (mkWorld (react (world s)) (fileInputRef (world s))
                  (trace (world s) ++ [PreventDefault]))
         (inflight s))
| Step_accept clk r :
    isLoading (react (world s)) = false ->
    rejected (react (world s)) = false ->
    r = mkRequest "http://localhost:5000/chat" "POST"
          (build_formData (react (world s))) ->
    Step s (Submit clk)
      (mkSystem
         (mkWorld
            (mkState (messages (react (world s)) ++
                        [userMessage (react (world s)) clk])
                     "" None true)
            (fileInputRef (world s))
            (trace (world s) ++
               [PreventDefault;
                DidSetMessages (messages (react (world s)))
                  (messages (react (world s)) ++
                     [userMessage (react (world s)) clk]);
                DidSetInput ""; DidSetIsLoading true;
                DidSetSelectedFile None; DidFetch r]))
         (inflight s ++ [r]))
| Step_settle reply clk r rest :
    inflight s = r :: rest ->
    Step s (Settle reply clk)
      (mkSystem (snd (handleSubmit_resume reply clk (world s))) rest).

(** The component while the request for the draft "hi" is in flight. *)
Definition waiting : System :=
  mkSystem (snd (handleSubmit_dispatch (react (drafted "hi" None))
                   (mkClock 1 1) (drafted "hi" None)))
           [mkRequest "http://localhost:5000/chat" "POST"
              [("message", FormString "hi")]].

(** The message ids are distinct and every stamped id carries a clock
    reading of [used]. *)
Definition ids_ok (used : list N) (l : list Message) : Prop :=
  NoDup (map id l) /\
  Forall (fun m => forall t, before_dash (id m) = Some (toString t) ->
                             In t used) l.


(* ===================================================================== *)
(** ** The handler in closed form *)

Definition chat_url : string := "http://localhost:5000/chat".

(** [trim] on a few drafts: inner white space stays, and the tab, the
    line feed and the no-break space count as white space. *)
Example trim_empty : trim "" = "".
Proof. reflexivity. Qed.

Example trim_padded : trim " hi " = "hi".
Proof. reflexivity. Qed.

Example trim_inner_space : trim "  a b " = "a b".
Proof. reflexivity. Qed.

Example trim_blank :
  trim (string_of_list_ascii (bytes [32; 9; 10; 194; 160; 13])) = "".
Proof. reflexivity. Qed.

Lemma dispatch_rejected render clk w :
  rejected render = true ->
  handleSubmit_dispatch render clk w =
    (Normal None,
     mkWorld (react w) (fileInputRef w) (trace w ++ [PreventDefault])).
Proof.
  intros H. unfold handleSubmit_dispatch, bind, preventDefault, log.
  now rewrite H.
Qed.

Lemma dispatch_accepted render clk w :
  rejected render = false ->
  let r := mkRequest chat_url "POST" (build_formData render) in
  handleSubmit_dispatch render clk w =
    (Normal (Some r),
     mkWorld (mkState (messages (react w) ++ [userMessage render clk])
                      "" None true)
             (fileInputRef w)
             (trace w ++
                [PreventDefault;
                 DidSetMessages (messages (react w))
                   (messages (react w) ++ [userMessage render clk]);
                 DidSetInput ""; DidSetIsLoading true;
                 DidSetSelectedFile None; DidFetch r])).
Proof.
  intros H r. unfold handleSubmit_dispatch, bind, preventDefault, log.
  rewrite H. cbn. repeat rewrite <- app_assoc. reflexivity.
Qed.

(** The finalizer on any world. *)
Lemma finally_block_world w :
  finally_block w =
    (Normal tt,
     mkWorld (mkState (messages (react w)) (input (react w))
                      (selectedFile (react w)) false)
             (option_map (fun _ => "") (fileInputRef w))
             (trace w ++ DidSetIsLoading false ::
                match fileInputRef w with
                | Some _ => [DidResetFileInput]
                | None => []
                end)).
Proof.
  unfold finally_block, bind, setIsLoading, reset_fileInput, log, update.
  cbn. destruct (fileInputRef w); cbn.
  - now rewrite <- app_assoc.
  - reflexivity.
Qed.

(** The messages a settlement appends. *)
Lemma resume_messages reply clk w :
  messages (react (snd (handleSubmit_resume reply clk w))) =
    messages (react w) ++
    match reply with
    | FetchRejected _ | JsonRejected _ | JsonResolved DataNull =>
        [fetchErrorMessage clk]
    | JsonResolved (DataObject r) =>
        if truthy_opt (response r) || truthy_opt (annotated_image_url r)
        then [botMessage (response r) (annotated_image_url r) clk]
        else if truthy_opt (error r) then [errorMessage (error r) clk]
        else []
    end.
Proof.
  unfold handleSubmit_resume, try_catch_finally.
  destruct reply as [e|e|[|r]]; cbn;
    try (destruct (fileInputRef w); reflexivity).
  destruct (truthy_opt (response r)); cbn.
  - destruct (fileInputRef w); reflexivity.
  - destruct (truthy_opt (annotated_image_url r)); cbn.
    + destruct (fileInputRef w); reflexivity.
    + destruct (truthy_opt (error r)); cbn;
        destruct (fileInputRef w); cbn; now rewrite ?app_nil_r.
Qed.

Lemma requests_app t1 t2 : requests (t1 ++ t2) = requests t1 ++ requests t2.
Proof.
  induction t1 as [|e t1 IH]; [reflexivity|].
  destruct e; cbn; now rewrite ?IH.
Qed.

Ltac split_cases reply w r :=
  destruct reply as [?e|?e|[|r]]; cbn;
  [ | | |
    destruct (truthy_opt (response r)); cbn;
    [ | destruct (truthy_opt (annotated_image_url r)); cbn;
        [ | destruct (truthy_opt (error r)); cbn ] ] ];
  destruct (fileInputRef w); cbn.

(** What a settlement leaves of the rest of the state. *)
Lemma resume_frame reply clk w :
  let w' := snd (handleSubmit_resume reply clk w) in
  fst (handleSubmit_resume reply clk w) = Normal tt /\
  input (react w') = input (react w) /\
  selectedFile (react w') = selectedFile (react w) /\
  isLoading (react w') = false /\
  fileInputRef w' = option_map (fun _ => "") (fileInputRef w) /\
  requests (trace w') = requests (trace w).
Proof.
  unfold handleSubmit_resume, try_catch_finally.
  split_cases reply w r;
    repeat split; rewrite ?requests_app; cbn; now rewrite ?app_nil_r.
Qed.

(* ===================================================================== *)
(** ** Message accounting of one submission *)

(** C1, as stated, fails: a submission of the draft "hi" passes the
    precondition, and when the server answers with the JSON object [{}]
    the settlement appends no bot message at all. *)
Lemma C1_counterexample_empty_object :
  rejected (react (drafted "hi" None)) = false /\
  messages (react (snd (handleSubmit_resume empty_object (mkClock 2 2)
    (snd (handleSubmit_dispatch (react (drafted "hi" None)) (mkClock 1 1)
            (drafted "hi" None)))))) =
  messages (react (snd (handleSubmit_dispatch (react (drafted "hi" None))
                          (mkClock 1 1) (drafted "hi" None)))) /\
  List.length (messages (react (snd (handleSubmit (react (drafted "hi" None))
                 (mkClock 1 1) empty_object (mkClock 2 2)
                 (drafted "hi" None))))) <>
  List.length (messages (react (drafted "hi" None))) + 2.
Proof. repeat split. cbn. discriminate. Qed.

(** C1 (amended): a submission that passes the precondition appends
    exactly one [user] message at once; its settlement, in whatever state
    it finds the component, appends at most one message, always a [bot]
    one: exactly one when the settlement is a success, a server-declared
    error or a transport failure, and none when the parsed body carries
    none of the recognised fields. *)
Theorem C1_one_user_then_at_most_one_bot render clk w :
  rejected render = false ->
  (exists r, fst (handleSubmit_dispatch render clk w) = Normal (Some r)) /\
  messages (react (snd (handleSubmit_dispatch render clk w))) =
    messages (react w) ++ [userMessage render clk] /\
  sender (userMessage render clk) = user /\
  forall reply clk' w',
    exists bots,
      messages (react (snd (handleSubmit_resume reply clk' w'))) =
        messages (react w') ++ bots /\
      Forall (fun m => sender m = bot) bots /\
      (classify reply <> SilentDrop -> List.length bots = 1) /\
      (classify reply = SilentDrop -> bots = []).
Proof.
  intros H. rewrite (dispatch_accepted render clk w H). cbn.
  split; [eauto|]. split; [reflexivity|]. split; [reflexivity|].
  intros reply clk' w'. rewrite resume_messages.
  eexists; split; [reflexivity|].
  destruct reply as [e|e|[|r]]; cbn;
    try (repeat split; [repeat constructor | discriminate]).
  destruct (truthy_opt (response r) || truthy_opt (annotated_image_url r));
    [repeat split; [repeat constructor | discriminate]|].
  destruct (truthy_opt (error r));
    repeat split; try repeat constructor; try discriminate; congruence.
Qed.

Lemma C1_witness_typed_hi :
  rejected (react (drafted "hi" None)) = false /\
  messages (react (snd (handleSubmit_dispatch (react (drafted "hi" None))
                          (mkClock 1 1) (drafted "hi" None)))) =
    messages (react (drafted "hi" None)) ++
      [userMessage (react (drafted "hi" None)) (mkClock 1 1)].
Proof.
  split; [reflexivity|].
  apply (C1_one_user_then_at_most_one_bot (react (drafted "hi" None))
           (mkClock 1 1) (drafted "hi" None)).
  reflexivity.
Defined.

(* ===================================================================== *)
(** ** The multipart payload *)

(** C2, as stated, fails: for the draft " hi " the payload's text field
    is " hi ", not the trimmed "hi". *)
Lemma C2_counterexample_untrimmed_field :
  trim " hi " = "hi" /\
  fst (handleSubmit_dispatch (react (drafted " hi " None)) (mkClock 1 1)
         (drafted " hi " None)) =
    Normal (Some (mkRequest chat_url "POST"
                    [("message", FormString " hi ")])) /\
  FormString " hi " <> FormString (trim " hi ").
Proof. repeat split. cbn. discriminate. Qed.

(** C2 (amended): for every submission whose draft text is non-empty after
    trimming, the payload's text field is present and carries the draft
    text exactly as typed, untrimmed; the file field is present exactly
    when a file is selected, and then carries that file. *)
Theorem C2_payload_carries_raw_text render clk w :
  truthy (trim (input render)) = true ->
  exists r,
    fst (handleSubmit_dispatch render clk w) = Normal (Some r) /\
    url r = chat_url /\ method r = "POST" /\
    body r = ("message", FormString (input render)) ::
             match selectedFile render with
             | Some f => [("image", FormFile f)]
             | None => []
             end /\
    FormData_get "message" (body r) = Some (FormString (input render)) /\
    FormData_get "image" (body r) = option_map FormFile (selectedFile render).
Proof.
  intros H.
  assert (R : rejected render = false) by (unfold rejected; now rewrite H).
  rewrite (dispatch_accepted render clk w R). cbn.
  eexists; split; [reflexivity|]. cbn.
  unfold build_formData; rewrite H.
  destruct (selectedFile render); cbn; repeat split; reflexivity.
Qed.

Lemma C2_witness_text_and_file :
  truthy (trim (input (react (drafted " hi " (Some xray))))) = true /\
  exists r,
    fst (handleSubmit_dispatch (react (drafted " hi " (Some xray)))
           (mkClock 1 1) (drafted " hi " (Some xray))) = Normal (Some r) /\
    body r = [("message", FormString " hi "); ("image", FormFile xray)].
Proof.
  split; [reflexivity|].
  destruct (C2_payload_carries_raw_text (react (drafted " hi " (Some xray)))
              (mkClock 1 1) (drafted " hi " (Some xray)) eq_refl)
    as (r & Hr & _ & _ & Hb & _).
  exists r. split; [exact Hr | exact Hb].
Defined.

(* ===================================================================== *)
(** ** The selected file *)

(** C3, as stated, fails: with a file selected, the submit turn leaves a
    request in flight with the flag set, and the selected-file state is
    already null. *)
Lemma C3_counterexample_cleared_while_in_flight :
  selectedFile (react (drafted "" (Some xray))) = Some xray /\
  exists s',
    step (Submit (mkClock 1 1)) (mkSystem (drafted "" (Some xray)) []) =
      Some s' /\
    inflight s' = [mkRequest chat_url "POST" [("image", FormFile xray)]] /\
    isLoading (react (world s')) = true /\
    selectedFile (react (world s')) = None.
Proof. split; [reflexivity|]. eexists. cbn. repeat split. Qed.

(** C3 (amended): for every submission with a selected file, the
    selected-file state is cleared at dispatch, before the network call is
    issued; the file itself travels in the request payload.  Settlement does not touch the selected-file state; it only resets the
    value of the file picker. *)
Theorem C3_file_cleared_at_dispatch render clk w f :
  selectedFile render = Some f ->
  exists r d,
    handleSubmit_dispatch render clk w =
      (Normal (Some r), snd (handleSubmit_dispatch render clk w)) /\
    FormData_get "image" (body r) = Some (FormFile f) /\
    trace (snd (handleSubmit_dispatch render clk w)) = trace w ++ d /\
    before (DidSetSelectedFile None) (DidFetch r) d /\
    selectedFile (react (snd (handleSubmit_dispatch render clk w))) = None /\
    forall reply clk' w',
      selectedFile (react (snd (handleSubmit_resume reply clk' w'))) =
        selectedFile (react w') /\
      fileInputRef (snd (handleSubmit_resume reply clk' w')) =
        option_map (fun _ => "") (fileInputRef w').
Proof.
  intros H.
  assert (R : rejected render = false).
  { unfold rejected. rewrite H. cbn. apply andb_false_r. }
  rewrite (dispatch_accepted render clk w R). cbn.
  eexists; eexists. split; [reflexivity|].
  split.
  { cbn. unfold build_formData. rewrite H.
    destruct (truthy (trim (input render))); reflexivity. }
  split; [reflexivity|].
  split.
  { exists [PreventDefault;
            DidSetMessages (messages (react w))
              (messages (react w) ++ [userMessage render clk]);
            DidSetInput ""; DidSetIsLoading true], [], [].
    reflexivity. }
  split; [reflexivity|].
  intros reply clk' w'.
  destruct (resume_frame reply clk' w') as (_ & _ & Hs & _ & Hf & _).
  split; assumption.
Qed.

Lemma C3_witness_file_only :
  selectedFile (react (drafted "" (Some xray))) = Some xray /\
  selectedFile (react (snd (handleSubmit_dispatch
    (react (drafted "" (Some xray))) (mkClock 1 1)
    (drafted "" (Some xray))))) = None.
Proof.
  split; [reflexivity|].
  destruct (C3_file_cleared_at_dispatch (react (drafted "" (Some xray)))
              (mkClock 1 1) (drafted "" (Some xray)) xray eq_refl)
    as (r & d & _ & _ & _ & _ & Hs & _).
  exact Hs.
Defined.

(* ===================================================================== *)
(** ** The rejected submission *)

(** C4: when the draft text is empty or only white space and no file is
    selected, the submission does nothing: the handler returns before any
    state setter or network call, so the message list, the draft text, the
    selected file, the in-flight flag and the requests in flight are what
    they were. *)
Theorem C4_empty_submission_is_noop render clk w :
  trim (input render) = "" ->
  selectedFile render = None ->
  fst (handleSubmit_dispatch render clk w) = Normal None /\
  react (snd (handleSubmit_dispatch render clk w)) = react w /\
  fileInputRef (snd (handleSubmit_dispatch render clk w)) = fileInputRef w /\
  trace (snd (handleSubmit_dispatch render clk w)) =
    trace w ++ [PreventDefault] /\
  requests (trace (snd (handleSubmit_dispatch render clk w))) =
    requests (trace w) /\
  forall s,
    react (world s) = render -> isLoading render = false ->
    exists s',
      step (Submit clk) s = Some s' /\
      react (world s') = react (world s) /\
      inflight s' = inflight s.
Proof.
  intros Ht Hf.
  assert (R : rejected render = true).
  { unfold rejected. now rewrite Ht, Hf. }
  rewrite (dispatch_rejected render clk w R).
  do 4 (split; [reflexivity|]). split.
  - cbn. rewrite requests_app. cbn. apply app_nil_r.
  - intros s Hs Hl. unfold step. rewrite Hs, Hl.
    rewrite (dispatch_rejected render clk (world s) R).
    eexists; split; [reflexivity|]. cbn. now rewrite Hs.
Qed.

Lemma C4_witness_blank_draft :
  trim (input (react (drafted "  " None))) = "" /\
  selectedFile (react (drafted "  " None)) = None /\
  react (snd (handleSubmit_dispatch (react (drafted "  " None))
                (mkClock 1 1) (drafted "  " None))) =
    react (drafted "  " None).
Proof.
  split; [reflexivity|]. split; [reflexivity|].
  apply (C4_empty_submission_is_noop (react (drafted "  " None))
           (mkClock 1 1) (drafted "  " None)); reflexivity.
Defined.

(* ===================================================================== *)
(** ** The in-flight flag *)

(** Whatever the guarded block and the handler do, and however they
    complete, the [finally] block leaves the flag cleared. *)
Lemma finally_clears_flag (body : JS unit) (handler : Exn -> JS unit) w :
  isLoading
    (react (snd (try_catch_finally body handler finally_block w))) = false.
Proof.
  unfold try_catch_finally.
  destruct (body w) as [c1 w1].
  destruct (match c1 with
            | Normal a => (Normal a, w1)
            | Throw e => handler e w1
            end) as [c2 w2].
  rewrite (finally_block_world w2). reflexivity.
Qed.

(** C5: a submission that passes the precondition sets the in-flight flag
    before it issues its one network call; when the call settles the flag
    is cleared, on the success, server-error, silent and failure paths and
    also when an exception propagates out of the guarded block or of its
    handler; the settlement turn therefore leaves the submit control
    enabled. *)
Theorem C5_flag_set_then_always_cleared render clk w :
  rejected render = false ->
  (exists r d,
     fst (handleSubmit_dispatch render clk w) = Normal (Some r) /\
     trace (snd (handleSubmit_dispatch render clk w)) = trace w ++ d /\
     before (DidSetIsLoading true) (DidFetch r) d /\
     requests d = [r] /\
     isLoading (react (snd (handleSubmit_dispatch render clk w))) = true) /\
  (forall reply clk' w',
     fst (handleSubmit_resume reply clk' w') = Normal tt /\
     isLoading (react (snd (handleSubmit_resume reply clk' w'))) = false) /\
  (forall body handler w',
     isLoading
       (react (snd (try_catch_finally body handler finally_block w'))) =
     false) /\
  (forall s reply clk',
     inflight s <> [] ->
     exists s',
       step (Settle reply clk') s = Some s' /\
       isLoading (react (world s')) = false /\
       forall clk'', step (Submit clk'') s' <> None).
Proof.
  intros R. rewrite (dispatch_accepted render clk w R).
  split.
  { cbn. eexists; eexists. split; [reflexivity|]. split; [reflexivity|].
    split; [|split; reflexivity].
    exists [PreventDefault;
            DidSetMessages (messages (react w))
              (messages (react w) ++ [userMessage render clk]);
            DidSetInput ""], [DidSetSelectedFile None], [].
    reflexivity. }
  split.
  { intros reply clk' w'.
    destruct (resume_frame reply clk' w') as (Hn & _ & _ & Hl & _).
    split; assumption. }
  split; [apply finally_clears_flag|].
  intros s reply clk' Hin.
  destruct (inflight s) as [|r rest] eqn:E; [congruence|].
  unfold step at 1. rewrite E. eexists; split; [reflexivity|].
  destruct (resume_frame reply clk' (world s)) as (_ & _ & _ & Hl & _).
  split; [exact Hl|].
  intros clk''. unfold step. cbn [world]. rewrite Hl.
  match goal with
  | |- context [handleSubmit_dispatch ?a ?b ?c] =>
      destruct (handleSubmit_dispatch a b c) as [[[?|]|] ?]
  end; discriminate.
Qed.

Lemma C5_witness_typed_hi :
  rejected (react (drafted "hi" None)) = false /\
  isLoading (react (snd (handleSubmit_dispatch (react (drafted "hi" None))
                           (mkClock 1 1) (drafted "hi" None)))) = true /\
  isLoading (react (snd (handleSubmit_resume (FetchRejected "offline")
    (mkClock 2 2)
    (snd (handleSubmit_dispatch (react (drafted "hi" None))
            (mkClock 1 1) (drafted "hi" None)))))) = false.
Proof.
  split; [reflexivity|].
  destruct (C5_flag_set_then_always_cleared (react (drafted "hi" None))
              (mkClock 1 1) (drafted "hi" None) eq_refl)
    as ((r & d & _ & _ & _ & _ & Hl) & Hr & _).
  split; [exact Hl | apply Hr].
Defined.

(* ===================================================================== *)
(** ** The message list across the event loop *)

Lemma resume_trace reply clk w :
  exists d,
    trace (snd (handleSubmit_resume reply clk w)) = trace w ++ d /\
    Forall appends_one d.
Proof.
  unfold handleSubmit_resume, try_catch_finally.
  split_cases reply w r;
    (eexists; split;
     [ repeat rewrite <- app_assoc; reflexivity
     | repeat constructor; eexists; reflexivity ]).
Qed.

Lemma step_messages e s s' :
  step e s = Some s' ->
  messages (react (world s')) = messages (react (world s)) \/
  exists m, messages (react (world s')) = messages (react (world s)) ++ [m].
Proof.
  destruct e as [v|files|clk|reply clk]; unfold step.
  - intros [= <-]. now left.
  - intros [= <-]. left. unfold browser_pick.
    destruct (fileInputRef (world s)); reflexivity.
  - destruct (isLoading (react (world s))); [discriminate|].
    destruct (rejected (react (world s))) eqn:R.
    + rewrite (dispatch_rejected _ clk (world s) R). intros [= <-]. now left.
    + rewrite (dispatch_accepted _ clk (world s) R). intros [= <-].
      right. eexists. reflexivity.
  - destruct (inflight s) as [|r rest]; [discriminate|]. intros [= <-].
    cbn [world]. rewrite resume_messages.
    destruct reply as [x|x|[|d]];
      try (right; eexists; reflexivity).
    destruct (truthy_opt (response d) || truthy_opt (annotated_image_url d));
      [right; eexists; reflexivity|].
    destruct (truthy_opt (error d)); [right; eexists; reflexivity|].
    left. apply app_nil_r.
Qed.

Lemma step_trace e s s' :
  step e s = Some s' ->
  exists d,
    trace (world s') = trace (world s) ++ d /\ Forall appends_one d.
Proof.
  destruct e as [v|files|clk|reply clk]; unfold step.
  - intros [= <-]. exists [DidSetInput v]. split; [reflexivity|].
    repeat constructor.
  - intros [= <-]. exists [DidSetSelectedFile (hd_error files)].
    split; [|repeat constructor].
    unfold browser_pick. destruct (fileInputRef (world s)); reflexivity.
  - destruct (isLoading (react (world s))); [discriminate|].
    destruct (rejected (react (world s))) eqn:R.
    + rewrite (dispatch_rejected _ clk (world s) R). intros [= <-].
      eexists; split; [reflexivity|]. repeat constructor.
    + rewrite (dispatch_accepted _ clk (world s) R). intros [= <-].
      eexists; split; [reflexivity|].
      repeat constructor. eexists; reflexivity.
  - destruct (inflight s) as [|r rest]; [discriminate|]. intros [= <-].
    apply resume_trace.
Qed.

Lemma steps_messages es : forall s s',
  steps es s = Some s' ->
  exists suffix,
    messages (react (world s')) = messages (react (world s)) ++ suffix.
Proof.
  induction es as [|e es IH]; intros s s'; cbn.
  - intros [= <-]. exists []. now rewrite app_nil_r.
  - destruct (step e s) as [s1|] eqn:E; [|discriminate].
    intros H. destruct (IH _ _ H) as [suf Hsuf].
    destruct (step_messages _ _ _ E) as [Hm|[m Hm]]; rewrite Hsuf, Hm.
    + now exists suf.
    + exists (m :: suf). now rewrite <- app_assoc.
Qed.

Lemma steps_trace es : forall s s',
  steps es s = Some s' ->
  Forall appends_one (trace (world s)) ->
  Forall appends_one (trace (world s')).
Proof.
  induction es as [|e es IH]; intros s s' H Hs.
  - cbn in H. injection H as <-. exact Hs.
  - cbn [steps] in H. destruct (step e s) as [s1|] eqn:E; [|discriminate].
    apply (IH _ _ H).
    destruct (step_trace _ _ _ E) as (d & Hd1 & Hd). rewrite Hd1.
    apply Forall_app. split; assumption.
Qed.

(** While the submit control is gated by the flag, the flag is set
    exactly when one request is in flight, and there is never a second. *)
Lemma steps_one_in_flight es : forall s s',
  steps es s = Some s' ->
  List.length (inflight s) = (if isLoading (react (world s)) then 1 else 0) ->
  List.length (inflight s') = (if isLoading (react (world s')) then 1 else 0).
Proof.
  induction es as [|e es IH]; intros s s' H Hs.
  - cbn in H. injection H as <-. exact Hs.
  - cbn [steps] in H. destruct (step e s) as [s1|] eqn:E; [|discriminate].
    apply (IH _ _ H). clear IH H.
    destruct e as [v|files|clk|reply clk]; unfold step in E.
    + injection E as <-. exact Hs.
    + injection E as <-. cbn [world inflight].
      unfold browser_pick. destruct (fileInputRef (world s)); exact Hs.
    + destruct (isLoading (react (world s))) eqn:L; [discriminate|].
      destruct (rejected (react (world s))) eqn:R.
      * rewrite (dispatch_rejected _ clk (world s) R) in E.
        injection E as <-. cbn [world inflight react]. now rewrite L.
      * rewrite (dispatch_accepted _ clk (world s) R) in E.
        injection E as <-. cbn [world inflight react isLoading].
        rewrite length_app, Hs. reflexivity.
    + destruct (inflight s) as [|r rest] eqn:I; [discriminate|].
      injection E as <-. cbn [world inflight].
      destruct (resume_frame reply clk (world s)) as (_ & _ & _ & Hl & _).
      rewrite Hl. cbn in Hs. destruct (isLoading (react (world s))); [|discriminate].
      now injection Hs.
Qed.

(** C7: along every run of the component the message list only grows at
    its end: each turn leaves it as it was or adds one message after the
    last, every [setMessages] call ever made appended one message to the
    list it found, the messages already present keep their positions and
    contents in every later state, and the first message remains the
    seeded welcome message of the bot. *)
Theorem C7_messages_append_only date es s :
  steps es (start date) = Some s ->
  hd_error (messages (react (world s))) = Some (welcome date) /\
  sender (welcome date) = bot /\
  Forall appends_one (trace (world s)) /\
  (forall e s',
     step e s = Some s' ->
     messages (react (world s')) = messages (react (world s)) \/
     exists m,
       messages (react (world s')) = messages (react (world s)) ++ [m]) /\
  (forall es' s' i m,
     steps es' s = Some s' ->
     nth_error (messages (react (world s))) i = Some m ->
     nth_error (messages (react (world s'))) i = Some m).
Proof.
  intros H.
  split.
  { destruct (steps_messages _ _ _ H) as [suf ->]. reflexivity. }
  split; [reflexivity|].
  split.
  { apply (steps_trace _ _ _ H). constructor. }
  split; [intros e s'; apply step_messages|].
  intros es' s' i m H' Hi.
  destruct (steps_messages _ _ _ H') as [suf ->].
  rewrite nth_error_app1; [exact Hi|].
  apply nth_error_Some. congruence.
Qed.

Lemma C7_witness_one_round :
  steps one_round (start 0) = Some after_one_round /\
  hd_error (messages (react (world after_one_round))) = Some (welcome 0).
Proof.
  assert (E : steps one_round (start 0) = Some after_one_round)
    by (vm_compute; reflexivity).
  exact (conj E (proj1 (C7_messages_append_only 0 _ _ E))).
Defined.

(* ===================================================================== *)
(** ** The three replies *)

(** C6: on a parsed response object the success branch is tested first.
    When the response text or the annotated-image URL is a non-empty
    string, one bot message is appended with that text (the empty string
    when there is none) and that image reference, and the error field has
    no influence on the result; only when neither is non-empty does the
    error field decide what is appended, and then it is the error message
    or nothing. *)
Theorem C6_success_checked_before_error r clk w :
  (truthy_opt (response r) = true \/
   truthy_opt (annotated_image_url r) = true ->
   messages (react (snd (handleSubmit_resume (JsonResolved (DataObject r))
                           clk w))) =
     messages (react w) ++
       [mkMessage (toString (Date_now clk) ++ "-bot")%string
                  match response r with Some t => t | None => "" end
                  bot (new_Date clk) (annotated_image_url r)] /\
   forall e,
     snd (handleSubmit_resume
            (JsonResolved (DataObject
               (mkResponseData (response r) (annotated_image_url r) e)))
            clk w) =
     snd (handleSubmit_resume (JsonResolved (DataObject r)) clk w)) /\
  (truthy_opt (response r) = false ->
   truthy_opt (annotated_image_url r) = false ->
   messages (react (snd (handleSubmit_resume (JsonResolved (DataObject r))
                           clk w))) =
     messages (react w) ++
       if truthy_opt (error r) then [errorMessage (error r) clk] else []).
Proof.
  split.
  - intros H.
    assert (S : truthy_opt (response r) || truthy_opt (annotated_image_url r)
                = true).
    { apply orb_true_iff. exact H. }
    split.
    + rewrite resume_messages, S. unfold botMessage.
      destruct (response r) as [[|a t]|]; reflexivity.
    + intros e. destruct r as [rs im er]. cbn in S.
      unfold handleSubmit_resume, try_catch_finally, try_block.
      cbn. destruct (truthy_opt rs); cbn.
      * destruct (fileInputRef w); reflexivity.
      * cbn in S. rewrite S. cbn. destruct (fileInputRef w); reflexivity.
  - intros H1 H2. rewrite resume_messages, H1, H2. reflexivity.
Qed.

Lemma C6_witness_text_and_error :
  truthy_opt (response (mkResponseData (Some "R") None (Some "late"))) = true
  /\
  messages (react (snd (handleSubmit_resume
    (JsonResolved (DataObject (mkResponseData (Some "R") None (Some "late"))))
    (mkClock 2 2) (drafted "" None)))) =
  messages (react (drafted "" None)) ++ [mkMessage "2-bot" "R" bot 2 None].
Proof.
  split; [reflexivity|].
  apply (C6_success_checked_before_error
           (mkResponseData (Some "R") None (Some "late")) (mkClock 2 2)
           (drafted "" None)).
  left. reflexivity.
Defined.

(** C8: a parsed response with no non-empty response text, no non-empty
    annotated-image URL and a non-empty error field M appends exactly one
    bot message, with the text "⚠ Error: " followed by M and with no image
    reference. *)
Theorem C8_server_error_text r clk w M :
  truthy_opt (response r) = false ->
  truthy_opt (annotated_image_url r) = false ->
  error r = Some M ->
  M <> "" ->
  messages (react (snd (handleSubmit_resume (JsonResolved (DataObject r))
                          clk w))) =
    messages (react w) ++
      [mkMessage (toString (Date_now clk) ++ "-error")%string
                 ("⚠ Error: " ++ M)%string bot (new_Date clk) None].
Proof.
  intros H1 H2 H3 H4.
  rewrite resume_messages, H1, H2, H3. cbn.
  destruct M; [congruence|reflexivity].
Qed.

Lemma C8_witness_bad_image :
  messages (react (snd (handleSubmit_resume (error_reply "bad image")
                          (mkClock 2 2) (drafted "" None)))) =
    messages (react (drafted "" None)) ++
      [mkMessage "2-error" "⚠ Error: bad image" bot 2 None].
Proof.
  apply (C8_server_error_text (mkResponseData None None (Some "bad image"))
           (mkClock 2 2) (drafted "" None) "bad image");
    [reflexivity | reflexivity | reflexivity | discriminate].
Defined.

(** C9: when the awaited network call throws or rejects, exactly one bot
    message is appended, with the fixed text "⚠ Failed to connect to the
    server." and no image reference.  The exception goes to the console
    only: the state the user sees is the same whatever the exception was.
    A body that parses to [null] ends the same way. *)
Theorem C9_transport_failure_text reply err clk w :
  thrown reply = Some err ->
  messages (react (snd (handleSubmit_resume reply clk w))) =
    messages (react w) ++
      [mkMessage (toString (Date_now clk) ++ "-fetch-error")%string
                 "⚠ Failed to connect to the server." bot (new_Date clk)
                 None] /\
  In (DidConsoleError "Fetch error:" err)
     (trace (snd (handleSubmit_resume reply clk w))) /\
  (forall reply' err',
     thrown reply' = Some err' ->
     react (snd (handleSubmit_resume reply' clk w)) =
     react (snd (handleSubmit_resume reply clk w)) /\
     fileInputRef (snd (handleSubmit_resume reply' clk w)) =
     fileInputRef (snd (handleSubmit_resume reply clk w))) /\
  messages (react (snd (handleSubmit_resume (JsonResolved DataNull) clk w))) =
    messages (react w) ++ [fetchErrorMessage clk].
Proof.
  intros H.
  split.
  { rewrite resume_messages.
    destruct reply as [e|e|d]; try discriminate; reflexivity. }
  split.
  { destruct reply as [e|e|d]; try discriminate;
      injection H as ->;
      unfold handleSubmit_resume, try_catch_finally; cbn;
      destruct (fileInputRef w); cbn;
      rewrite ?in_app_iff; cbn; intuition. }
  split.
  { intros reply' err' H'.
    destruct reply as [e|e|d]; try discriminate;
      destruct reply' as [e'|e'|d']; try discriminate;
      unfold handleSubmit_resume, try_catch_finally; cbn;
      destruct (fileInputRef w); split; reflexivity. }
  rewrite resume_messages. reflexivity.
Qed.

Lemma C9_witness_offline :
  thrown (FetchRejected "TypeError: Failed to fetch") =
    Some "TypeError: Failed to fetch" /\
  messages (react (snd (handleSubmit_resume
    (FetchRejected "TypeError: Failed to fetch") (mkClock 2 2)
    (drafted "" None)))) =
  messages (react (drafted "" None)) ++
    [mkMessage "2-fetch-error" "⚠ Failed to connect to the server." bot 2
               None].
Proof.
  split; [reflexivity|].
  apply (C9_transport_failure_text
           (FetchRejected "TypeError: Failed to fetch")
           "TypeError: Failed to fetch" (mkClock 2 2) (drafted "" None)).
  reflexivity.
Defined.

(** C10: when the draft is non-empty but only white space and a file is
    selected, the submission proceeds; the appended user message carries
    the draft exactly as typed, and the payload has no text field and has
    the file field. *)
Theorem C10_blank_draft_with_file render clk w f :
  input render <> "" ->
  trim (input render) = "" ->
  selectedFile render = Some f ->
  exists r,
    fst (handleSubmit_dispatch render clk w) = Normal (Some r) /\
    messages (react (snd (handleSubmit_dispatch render clk w))) =
      messages (react w) ++
        [mkMessage (toString (Date_now clk) ++ "-user")%string
                   (input render) user (new_Date clk) None] /\
    body r = [("image", FormFile f)] /\
    FormData_has "message" (body r) = false /\
    FormData_has "image" (body r) = true.
Proof.
  intros _ Ht Hf.
  assert (R : rejected render = false).
  { unfold rejected. rewrite Hf. apply andb_false_r. }
  rewrite (dispatch_accepted render clk w R).
  eexists; split; [reflexivity|]. cbn.
  unfold build_formData. rewrite Ht, Hf. cbn.
  repeat split.
Qed.

Lemma C10_witness_spaces_and_xray :
  input (react (drafted "   " (Some xray))) <> "" /\
  trim (input (react (drafted "   " (Some xray)))) = "" /\
  exists r,
    fst (handleSubmit_dispatch (react (drafted "   " (Some xray)))
           (mkClock 1 1) (drafted "   " (Some xray))) = Normal (Some r) /\
    messages (react (snd (handleSubmit_dispatch
      (react (drafted "   " (Some xray))) (mkClock 1 1)
      (drafted "   " (Some xray))))) =
    [welcome 0; mkMessage "1-user" "   " user 1 None] /\
    body r = [("image", FormFile xray)].
Proof.
  split; [discriminate|]. split; [reflexivity|].
  destruct (C10_blank_draft_with_file (react (drafted "   " (Some xray)))
              (mkClock 1 1) (drafted "   " (Some xray)) xray)
    as (r & Hr & Hm & Hb & _);
    [discriminate | reflexivity | reflexivity |].
  exists r. split; [exact Hr|]. split; [exact Hm | exact Hb].
Defined.

(* ===================================================================== *)
(** ** Runs of the event loop, step by step *)

Lemma browser_pick_react files w : react (browser_pick files w) = react w.
Proof. unfold browser_pick. destruct (fileInputRef w); reflexivity. Qed.

Lemma browser_pick_trace files w : trace (browser_pick files w) = trace w.
Proof. unfold browser_pick. destruct (fileInputRef w); reflexivity. Qed.

Lemma step_Step e s s' : step e s = Some s' -> Step s e s'.
Proof.
  destruct e as [v|files|clk|reply clk]; unfold step.
  - intros [= <-]. apply Step_type.
  - intros [= <-]. cbn.
    rewrite browser_pick_react, browser_pick_trace. apply Step_choose.
  - destruct (isLoading (react (world s))) eqn:L; [discriminate|].
    destruct (rejected (react (world s))) eqn:R.
    + rewrite (dispatch_rejected _ clk (world s) R). intros [= <-].
      now apply Step_reject.
    + rewrite (dispatch_accepted _ clk (world s) R). intros [= <-].
      now apply Step_accept.
  - destruct (inflight s) as [|r rest] eqn:I; [discriminate|].
    intros [= <-]. now apply (Step_settle s reply clk r rest).
Qed.

(** A property kept by every turn holds along every run. *)
Lemma steps_invariant (P : System -> Prop) :
  (forall e s s', P s -> Step s e s' -> P s') ->
  forall es s s', steps es s = Some s' -> P s -> P s'.
Proof.
  intros HP. induction es as [|e es IH]; intros s s' H Hs.
  - cbn in H. injection H as <-. exact Hs.
  - cbn [steps] in H. destruct (step e s) as [s1|] eqn:E; [|discriminate].
    apply (IH _ _ H). apply (HP e s s1 Hs). now apply step_Step.
Qed.

Lemma toString_inj n m : toString n = toString m -> n = m.
Proof.
  unfold toString. intros H.
  assert (E : Some (N.to_uint n) = Some (N.to_uint m)).
  { rewrite <- !NilEmpty.usu. now rewrite H. }
  injection E as E.
  rewrite <- (DecimalN.Unsigned.of_to n), <- (DecimalN.Unsigned.of_to m).
  now rewrite E.
Qed.

Lemma before_dash_digits d suffix :
  before_dash (NilEmpty.string_of_uint d ++ String dash suffix) =
    Some (NilEmpty.string_of_uint d).
Proof.
  unfold dash. induction d; cbn in *; try reflexivity; now rewrite IHd.
Qed.

Lemma before_dash_stamp n suffix :
  before_dash (toString n ++ String dash suffix) = Some (toString n).
Proof. apply before_dash_digits. Qed.

(** The messages a settlement appends. *)
Lemma settle_appends reply clk w :
  exists bots,
    messages (react (snd (handleSubmit_resume reply clk w))) =
      messages (react w) ++ bots /\
    Forall (reply_message clk) bots /\
    List.length bots <= 1.
Proof.
  rewrite resume_messages. eexists; split; [reflexivity|].
  assert (F : reply_message clk (fetchErrorMessage clk)).
  { split; [reflexivity|]. split; [now left|]. now exists "fetch-error". }
  destruct reply as [e|e|[|r]]; cbn; try (split; [now constructor | lia]).
  destruct (truthy_opt (response r)) eqn:T; cbn.
  - split; [|lia]. constructor; [|constructor].
    split; [reflexivity|]. split; [|now exists "bot"].
    left. cbn. destruct (response r) as [t|]; [|discriminate].
    cbn in *. now rewrite T.
  - destruct (truthy_opt (annotated_image_url r)) eqn:U; cbn.
    + split; [|lia]. constructor; [|constructor].
      split; [reflexivity|]. split; [now right | now exists "bot"].
    + destruct (truthy_opt (error r)) eqn:Er; cbn.
      * split; [|lia]. constructor; [|constructor].
        split; [reflexivity|]. split; [now left | now exists "error"].
      * split; [constructor | lia].
Qed.

(* ===================================================================== *)
(** ** Further properties of the handler *)



(** X2: a submission that passes the precondition and settles before
    anything else happens leaves the component idle with an empty draft:
    the message list has grown by the user message followed by at most one
    bot message, the draft text is empty, no file is selected, the flag is
    clear, the picker is empty, and exactly one request was issued, with
    the payload built from the draft. *)
Theorem X2_uninterrupted_submission render clk reply clk' w :
  rejected render = false ->
  exists bots,
    fst (handleSubmit render clk reply clk' w) = Normal tt /\
    react (snd (handleSubmit render clk reply clk' w)) =
      mkState (messages (react w) ++ userMessage render clk :: bots)
              "" None false /\
    List.length bots <= 1 /\
    Forall (reply_message clk') bots /\
    fileInputRef (snd (handleSubmit render clk reply clk' w)) =
      option_map (fun _ => "") (fileInputRef w) /\
    requests (trace (snd (handleSubmit render clk reply clk' w))) =
      requests (trace w) ++
        [mkRequest "http://localhost:5000/chat" "POST"
           (build_formData render)].
Proof.
  intros R. unfold handleSubmit, bind.
  rewrite (dispatch_accepted render clk w R).
  set (w1 := mkWorld _ _ _).
  destruct (settle_appends reply clk' w1) as (bots & Hm & Hb & Hl).
  destruct (resume_frame reply clk' w1) as (Hn & Hi & Hs & Hld & Hf & Hr).
  exists bots. split; [exact Hn|]. split.
  { destruct (react (snd (handleSubmit_resume reply clk' w1))) as [m i f l].
    cbn in *. subst. now rewrite <- app_assoc. }
  split; [exact Hl|]. split; [exact Hb|]. split; [exact Hf|].
  rewrite Hr. unfold w1. cbn [trace]. rewrite requests_app. reflexivity.
Qed.

Lemma X2_witness_typed_hi :
  rejected (react (drafted "hi" None)) = false /\
  exists bots,
    react (snd (handleSubmit (react (drafted "hi" None)) (mkClock 1 1)
                  empty_object (mkClock 2 2) (drafted "hi" None))) =
      mkState (messages (react (drafted "hi" None)) ++
                 userMessage (react (drafted "hi" None)) (mkClock 1 1) :: bots)
              "" None false.
Proof.
  split; [reflexivity|].
  destruct (X2_uninterrupted_submission (react (drafted "hi" None))
              (mkClock 1 1) empty_object (mkClock 2 2) (drafted "hi" None)
              eq_refl) as (bots & _ & H & _).
  exists bots. exact H.
Defined.

(* ===================================================================== *)
(** ** Invariants of the runs *)

Lemma requests_snoc t e :
  requests (t ++ [e]) =
    requests t ++ match e with DidFetch r => [r] | _ => [] end.
Proof. rewrite requests_app. destruct e; reflexivity. Qed.

(** X3: along every run from the mounted component at most one request
    is in flight, it is the last one issued, and the typing indicator is
    shown and the submit control disabled exactly while it is in
    flight. *)
Theorem X3_one_request_in_flight date es s :
  steps es (start date) = Some s ->
  List.length (inflight s) <= 1 /\
  (exists earlier, requests (trace (world s)) = earlier ++ inflight s) /\
  (typing_indicator (render (react (world s))) = true <-> inflight s <> []) /\
  (submit_disabled (render (react (world s))) = true <-> inflight s <> []).
Proof.
  intros H.
  assert (P : List.length (inflight s) =
                (if isLoading (react (world s)) then 1 else 0) /\
              exists earlier,
                requests (trace (world s)) = earlier ++ inflight s).
  { refine (steps_invariant
              (fun s => List.length (inflight s) =
                          (if isLoading (react (world s)) then 1 else 0) /\
                        exists earlier,
                          requests (trace (world s)) = earlier ++ inflight s)
              _ es _ _ H _).
    - clear. intros e s s' [Hl [t Ht]] St.
      destruct St as [v|files|clk L R|clk r L R Er|reply clk r rest I];
        cbn [world inflight react trace isLoading].
      + split; [exact Hl|]. exists t. now rewrite requests_snoc, app_nil_r.
      + split; [exact Hl|]. exists t. now rewrite requests_snoc, app_nil_r.
      + split; [exact Hl|]. exists t. now rewrite requests_snoc, app_nil_r.
      + rewrite L in Hl. split.
        * rewrite length_app, Hl. reflexivity.
        * exists t. rewrite requests_app. cbn [requests].
          rewrite Ht. now rewrite app_assoc.
      + destruct (resume_frame reply clk (world s))
          as (_ & _ & _ & Hld & _ & Hr).
        rewrite Hld, Hr. rewrite I in *. cbn in Hl.
        destruct (isLoading (react (world s))); [|discriminate].
        split; [now injection Hl|].
        exists (t ++ [r]). rewrite Ht. now rewrite <- app_assoc.
    - split; [reflexivity|]. now exists []. }
  destruct P as [Hl Hsuf]. cbn [render typing_indicator submit_disabled].
  destruct (isLoading (react (world s))), (inflight s) as [|r rest];
    try discriminate; cbn in *.
  - repeat split; try lia; try exact Hsuf; intros; congruence.
  - repeat split; try lia; try exact Hsuf; intros; congruence.
Qed.

Lemma X3_witness_one_round :
  steps one_round (start 0) = Some after_one_round /\
  List.length (inflight after_one_round) <= 1.
Proof.
  assert (E : steps one_round (start 0) = Some after_one_round)
    by (vm_compute; reflexivity).
  exact (conj E (proj1 (X3_one_request_in_flight 0 _ _ E))).
Defined.

Lemma count_sender_app who l1 l2 :
  count_sender who (l1 ++ l2) = count_sender who l1 + count_sender who l2.
Proof. unfold count_sender. now rewrite filter_app, length_app. Qed.

Lemma count_sender_replies clk bots :
  Forall (reply_message clk) bots ->
  count_sender user bots = 0 /\ count_sender bot bots = List.length bots.
Proof.
  induction 1 as [|m l [Hb _] _ [IH1 IH2]]; [split; reflexivity|].
  unfold count_sender in *. cbn. rewrite Hb. cbn. now rewrite IH1, IH2.
Qed.

(** X4: along every run the number of user messages equals the number of
    network calls issued, and the bot messages are the welcome message
    plus at most one per settled call. *)
Theorem X4_message_accounting date es s :
  steps es (start date) = Some s ->
  count_sender user (messages (react (world s))) =
    List.length (requests (trace (world s))) /\
  1 <= count_sender bot (messages (react (world s))) /\
  count_sender bot (messages (react (world s))) + List.length (inflight s) <=
    1 + List.length (requests (trace (world s))).
Proof.
  intros H.
  refine (steps_invariant
            (fun s =>
               count_sender user (messages (react (world s))) =
                 List.length (requests (trace (world s))) /\
               1 <= count_sender bot (messages (react (world s))) /\
               count_sender bot (messages (react (world s))) +
                 List.length (inflight s) <=
               1 + List.length (requests (trace (world s))))
            _ es _ _ H _).
  - clear. intros e s s' (Hu & Hb1 & Hb) St.
    destruct St as [v|files|clk L R|clk r L R Er|reply clk r rest I];
      cbn [world inflight react trace messages].
    + rewrite requests_snoc, app_nil_r. auto.
    + rewrite requests_snoc, app_nil_r. auto.
    + rewrite requests_snoc, app_nil_r. auto.
    + rewrite requests_app. cbn [requests].
      rewrite !count_sender_app, !length_app. cbn. lia.
    + destruct (settle_appends reply clk (world s)) as (bots & Hm & Hf & Hl).
      destruct (resume_frame reply clk (world s)) as (_ & _ & _ & _ & _ & Hr).
      destruct (count_sender_replies clk bots Hf) as [C1 C2].
      rewrite Hm, Hr, !count_sender_app, C1, C2.
      rewrite I in Hb. cbn in Hb. lia.
  - cbn. lia.
Qed.

Lemma X4_witness_one_round :
  steps one_round (start 0) = Some after_one_round /\
  count_sender user (messages (react (world after_one_round))) =
    List.length (requests (trace (world after_one_round))).
Proof.
  assert (E : steps one_round (start 0) = Some after_one_round)
    by (vm_compute; reflexivity).
  exact (conj E (proj1 (X4_message_accounting 0 _ _ E))).
Defined.

Lemma follows_snoc (l : list Message) m :
  (forall i m1 m2,
     nth_error l i = Some m1 -> nth_error l (S i) = Some m2 ->
     sender m2 = bot -> sender m1 = user) ->
  (sender m = bot -> exists l' u, l = l' ++ [u] /\ sender u = user) ->
  forall i m1 m2,
    nth_error (l ++ [m]) i = Some m1 ->
    nth_error (l ++ [m]) (S i) = Some m2 ->
    sender m2 = bot -> sender m1 = user.
Proof.
  intros A Hlast i m1 m2 H1 H2 Hb.
  destruct (Nat.lt_ge_cases (S i) (List.length l)) as [Lt|Ge].
  - rewrite nth_error_app1 in H1, H2 by lia. exact (A i m1 m2 H1 H2 Hb).
  - assert (Si : S i < List.length (l ++ [m])).
    { apply nth_error_Some. congruence. }
    rewrite length_app in Si. cbn in Si.
    assert (E : S i = List.length l) by lia.
    rewrite nth_error_app2 in H2 by lia.
    rewrite E, Nat.sub_diag in H2. cbn in H2. injection H2 as <-.
    destruct (Hlast Hb) as (l' & u & -> & Hu).
    rewrite length_app in E. cbn in E.
    rewrite nth_error_app1 in H1 by (rewrite length_app; cbn; lia).
    rewrite nth_error_app2 in H1 by lia.
    replace (i - List.length l') with 0 in H1 by lia.
    cbn in H1. now injection H1 as <-.
Qed.

(** X5: along every run each bot message other than the first comes
    directly after a user message: the list never holds two bot messages
    in a row. *)
Theorem X5_reply_follows_user_message date es s :
  steps es (start date) = Some s ->
  forall i m1 m2,
    nth_error (messages (react (world s))) i = Some m1 ->
    nth_error (messages (react (world s))) (S i) = Some m2 ->
    sender m2 = bot ->
    sender m1 = user.
Proof.
  intros H.
  refine (proj1 (proj2 (steps_invariant
            (fun s =>
               List.length (inflight s) =
                 (if isLoading (react (world s)) then 1 else 0) /\
               (forall i m1 m2,
                  nth_error (messages (react (world s))) i = Some m1 ->
                  nth_error (messages (react (world s))) (S i) = Some m2 ->
                  sender m2 = bot -> sender m1 = user) /\
               (isLoading (react (world s)) = true ->
                exists l u,
                  messages (react (world s)) = l ++ [u] /\ sender u = user))
            _ es _ _ H _))).
  - clear. intros e s s' (Hl & Ha & Hu) St.
    destruct St as [v|files|clk L R|clk r L R Er|reply clk r rest I];
      cbn [world inflight react trace messages isLoading].
    + auto.
    + auto.
    + auto.
    + rewrite L in Hl. split; [rewrite length_app, Hl; reflexivity|]. split.
      * apply follows_snoc; [exact Ha | discriminate].
      * intros _. eexists; eexists. split; reflexivity.
    + destruct (settle_appends reply clk (world s)) as (bots & Hm & Hf & Hb).
      destruct (resume_frame reply clk (world s)) as (_ & _ & _ & Hld & _).
      rewrite Hm, Hld. rewrite I in Hl. cbn in Hl.
      destruct (isLoading (react (world s))); [|discriminate].
      split; [now injection Hl|]. split; [|discriminate].
      destruct bots as [|b [|b' bots]]; [| |cbn in Hb; lia].
      * now rewrite app_nil_r.
      * apply follows_snoc; [exact Ha|]. intros _. now apply Hu.
  - cbn. split; [reflexivity|]. split; [|discriminate].
    intros [|[|i]] m1 m2; cbn; discriminate.
Qed.

Lemma X5_witness_one_round :
  steps one_round (start 0) = Some after_one_round /\
  nth_error (messages (react (world after_one_round))) 2 =
    Some (errorMessage (Some "bad image") (mkClock 2 2)) /\
  sender (userMessage (react (drafted "hi" None)) (mkClock 1 1)) = user.
Proof.
  assert (E : steps one_round (start 0) = Some after_one_round)
    by (vm_compute; reflexivity).
  assert (E1 : nth_error (messages (react (world after_one_round))) 1 =
                 Some (userMessage (react (drafted "hi" None)) (mkClock 1 1)))
    by (vm_compute; reflexivity).
  assert (E2 : nth_error (messages (react (world after_one_round))) 2 =
                 Some (errorMessage (Some "bad image") (mkClock 2 2)))
    by (vm_compute; reflexivity).
  split; [exact E|]. split; [exact E2|].
  exact (X5_reply_follows_user_message 0 _ _ E 1 _ _ E1 E2 eq_refl).
Defined.

Lemma ids_ok_weaken used used' l :
  (forall t, In t used -> In t used') -> ids_ok used l -> ids_ok used' l.
Proof.
  intros Hs [Hn Hf]. split; [exact Hn|].
  eapply Forall_impl; [|exact Hf]. cbn. auto.
Qed.

Lemma ids_ok_snoc used l m t suffix :
  ids_ok used l ->
  ~ In t used ->
  id m = (toString t ++ String dash suffix)%string ->
  ids_ok (t :: used) (l ++ [m]).
Proof.
  intros [Hn Hf] Ht Hid. split.
  - rewrite map_app. cbn. apply NoDup_app; [exact Hn | repeat constructor; intros [] |].
    intros x Hx [<-|[]]. apply Ht.
    apply in_map_iff in Hx. destruct Hx as (m' & E & Hm').
    rewrite Forall_forall in Hf. apply (Hf m' Hm').
    rewrite E, Hid. apply before_dash_stamp.
  - apply Forall_app. split.
    + eapply Forall_impl; [|exact Hf]. cbn. intros a Ha t' Ht'. right. auto.
    + constructor; [|constructor]. intros t'. rewrite Hid, before_dash_stamp.
      intros [= E]. left. now apply toString_inj.
Qed.

Lemma steps_ids es : forall s s' used,
  steps es s = Some s' ->
  ids_ok used (messages (react (world s))) ->
  NoDup (clocks_of es) ->
  (forall t, In t (clocks_of es) -> ~ In t used) ->
  NoDup (map id (messages (react (world s')))).
Proof.
  induction es as [|e es IH]; intros s s' used H Hok Hn Hd.
  - cbn in H. injection H as <-. exact (proj1 Hok).
  - cbn [steps] in H. destruct (step e s) as [s1|] eqn:E; [|discriminate].
    apply step_Step in E.
    destruct E as [v|files|clk L R|clk r L R Er|reply clk r rest I];
      cbn [clocks_of] in Hn, Hd.
    + exact (IH _ _ used H Hok Hn Hd).
    + exact (IH _ _ used H Hok Hn Hd).
    + apply NoDup_cons_iff in Hn. destruct Hn as [Hn1 Hn2].
      apply (IH _ _ used H Hok Hn2). intros t Ht. apply Hd. now right.
    + apply NoDup_cons_iff in Hn. destruct Hn as [Hn1 Hn2].
      apply (IH _ _ (Date_now clk :: used) H); [|exact Hn2|].
      * cbn [world react messages].
        apply (ids_ok_snoc used _ _ (Date_now clk) "user" Hok).
        -- apply Hd. now left.
        -- reflexivity.
      * intros t Ht [<-|Hu]; [contradiction|]. apply (Hd t); [now right|exact Hu].
    + apply NoDup_cons_iff in Hn. destruct Hn as [Hn1 Hn2].
      apply (IH _ _ (Date_now clk :: used) H); [|exact Hn2|].
      * cbn [world].
        destruct (settle_appends reply clk (world s)) as (bots & Hm & Hf & Hb).
        rewrite Hm.
        destruct bots as [|b [|b' bots]]; [| |cbn in Hb; lia].
        -- rewrite app_nil_r. apply (ids_ok_weaken used); [|exact Hok].
           intros t Ht. now right.
        -- apply Forall_inv in Hf. destruct Hf as (_ & _ & suffix & Hid).
           apply (ids_ok_snoc used _ _ (Date_now clk) suffix Hok);
             [|exact Hid].
           apply Hd. now left.
      * intros t Ht [<-|Hu]; [contradiction|]. apply (Hd t); [now right|exact Hu].
Qed.

(** X6: along a run in which the handler never reads the same
    [Date.now()] value twice, all message ids are distinct, so the
    bubbles of the view have distinct React keys. *)
Theorem X6_message_ids_distinct date es s :
  steps es (start date) = Some s ->
  NoDup (clocks_of es) ->
  NoDup (map id (messages (react (world s)))) /\
  NoDup (map key (bubbles (render (react (world s))))).
Proof.
  intros H Hn.
  assert (N1 : NoDup (map id (messages (react (world s))))).
  { apply (steps_ids es (start date) s [] H); [|exact Hn|auto].
    split.
    - cbn. repeat constructor. intros [].
    - cbn. repeat constructor. intros t. cbn. discriminate. }
  split; [exact N1|].
  cbn [render bubbles]. rewrite map_map. exact N1.
Qed.

Lemma X6_witness_one_round :
  steps one_round (start 0) = Some after_one_round /\
  NoDup (clocks_of one_round) /\
  NoDup (map id (messages (react (world after_one_round)))).
Proof.
  assert (E : steps one_round (start 0) = Some after_one_round)
    by (vm_compute; reflexivity).
  assert (D : NoDup (clocks_of one_round)).
  { cbn. repeat constructor; cbn; intuition discriminate. }
  exact (conj E (conj D (proj1 (X6_message_ids_distinct 0 _ _ E D)))).
Defined.

Lemma build_formData_well_formed st :
  rejected st = false ->
  well_formed (mkRequest "http://localhost:5000/chat" "POST"
                 (build_formData st)).
Proof.
  unfold rejected, build_formData, well_formed. intros R. cbn.
  split; [reflexivity|]. split; [reflexivity|].
  destruct (truthy (trim (input st))) eqn:T;
    destruct (selectedFile st) as [f|]; cbn in *; try discriminate.
  - split; [discriminate|]. split.
    + intros t [[= <-]|[[=]|[]]]. intros E. now rewrite E in T.
    + now exists (Some (input st)), (Some f).
  - split; [discriminate|]. split.
    + intros t [[= <-]|[]]. intros E. now rewrite E in T.
    + now exists (Some (input st)), None.
  - split; [discriminate|]. split.
    + intros t [[=]|[]].
    + now exists None, (Some f).
Qed.

(** X7: every network call the component ever issues is a POST to the
    fixed endpoint whose payload is not empty: it holds a text field, a
    file field, or the text field followed by the file field, and a text
    field never holds a blank text. *)
Theorem X7_requests_well_formed date es s :
  steps es (start date) = Some s ->
  Forall well_formed (requests (trace (world s))) /\
  Forall well_formed (inflight s).
Proof.
  intros H.
  refine (steps_invariant
            (fun s => Forall well_formed (requests (trace (world s))) /\
                      Forall well_formed (inflight s))
            _ es _ _ H _).
  - clear. intros e s s' [Hr Hi] St.
    destruct St as [v|files|clk L R|clk r L R Er|reply clk r rest I];
      cbn [world inflight react trace].
    + rewrite requests_snoc, app_nil_r. auto.
    + rewrite requests_snoc, app_nil_r. auto.
    + rewrite requests_snoc, app_nil_r. auto.
    + rewrite requests_app. cbn [requests].
      assert (W : well_formed r)
        by (subst r; now apply build_formData_well_formed).
      split; apply Forall_app; split; auto.
    + destruct (resume_frame reply clk (world s)) as (_ & _ & _ & _ & _ & Hq).
      rewrite Hq. split; [exact Hr|]. rewrite I in Hi.
      now apply Forall_inv_tail in Hi.
  - cbn. split; constructor.
Qed.

Lemma X7_witness_one_round :
  steps one_round (start 0) = Some after_one_round /\
  Forall well_formed (requests (trace (world after_one_round))).
Proof.
  assert (E : steps one_round (start 0) = Some after_one_round)
    by (vm_compute; reflexivity).
  exact (conj E (proj1 (X7_requests_well_formed 0 _ _ E))).
Defined.

(* ===================================================================== *)
(** ** The view along the runs *)




(** X9: when the reply carries a non-empty annotated-image URL, the view
    gains exactly one bubble at its end: left-aligned, keyed by the new
    message id, with the image source formed by appending the URL to the
    fixed origin, and with a markdown block only when the reply also
    carries a non-empty text. *)
Theorem X9_image_reply_bubble r clk w :
  truthy_opt (annotated_image_url r) = true ->
  bubbles (render (react (snd (handleSubmit_resume
                                 (JsonResolved (DataObject r)) clk w)))) =
    bubbles (render (react w)) ++
      [mkBubble (toString (Date_now clk) ++ "-bot")%string
                "flex justify-start"
                (if truthy_opt (response r)
                 then Some (Markdown (template_arg (response r)))
                 else None)
                (Some ("http://localhost:5000" ++
                       template_arg (annotated_image_url r))%string)].
Proof.
  intros U. cbn [render bubbles]. rewrite resume_messages, U, orb_true_r.
  rewrite map_app. cbn [map]. unfold render_message, botMessage. cbn.
  rewrite U.
  destruct (response r) as [[|a t]|]; reflexivity.
Qed.

Lemma X9_witness_image_only :
  bubbles (render (react (snd (handleSubmit_resume
    (JsonResolved (DataObject
       (mkResponseData None (Some "/static/out.png") None)))
    (mkClock 2 2) (drafted "" None))))) =
  bubbles (render (react (drafted "" None))) ++
    [mkBubble "2-bot" "flex justify-start" None
              (Some "http://localhost:5000/static/out.png")].
Proof.
  apply (X9_image_reply_bubble
           (mkResponseData None (Some "/static/out.png") None)
           (mkClock 2 2) (drafted "" None)).
  reflexivity.
Defined.

(* ===================================================================== *)
(** ** A file chosen while a request is in flight *)

(** X10: a file chosen while a request is in flight outlives the
    settlement: the settlement empties the picker but leaves the
    selected-file state, so the label still shows the file and the next
    submission, whatever the draft text, sends that file. *)
Theorem X10_file_chosen_in_flight_is_sent s f fs reply clk clk' r rest :
  inflight s = r :: rest ->
  exists s1 s2 r',
    steps [ChooseFile (f :: fs); Settle reply clk] s = Some s1 /\
    fileInputRef (world s1) =
      option_map (fun _ => "") (fileInputRef (world s)) /\
    file_label (render (react (world s1))) = Some (name f) /\
    step (Submit clk') s1 = Some s2 /\
    requests (trace (world s2)) = requests (trace (world s)) ++ [r'] /\
    FormData_get "image" (body r') = Some (FormFile f).
Proof.
  intros I.
  pose (s0 := mkSystem
                (mkWorld (mkState (messages (react (world s)))
                                  (input (react (world s)))
                                  (hd_error (f :: fs))
                                  (isLoading (react (world s))))
                         (fileInputRef (browser_pick (f :: fs) (world s)))
                         (trace (world s) ++
                            [DidSetSelectedFile (hd_error (f :: fs))]))
                (inflight s)).
  assert (E0 : step (ChooseFile (f :: fs)) s = Some s0).
  { unfold step, s0. f_equal. f_equal. cbn.
    now rewrite browser_pick_react, browser_pick_trace. }
  pose (s1 := mkSystem (snd (handleSubmit_resume reply clk (world s0))) rest).
  assert (E1 : step (Settle reply clk) s0 = Some s1).
  { unfold step. cbn [inflight s0]. now rewrite I. }
  destruct (resume_frame reply clk (world s0))
    as (_ & Hi & Hs & Hl & Hf & Hr).
  assert (R : rejected (react (world s1)) = false).
  { unfold rejected. cbn [world s1]. rewrite Hs. cbn. apply andb_false_r. }
  exists s1. eexists. eexists.
  split; [cbn [steps]; now rewrite E0, E1|].
  split.
  { cbn [world s1]. rewrite Hf. cbn [world s0 fileInputRef].
    unfold browser_pick. destruct (fileInputRef (world s)) eqn:F; cbn.
    - reflexivity.
    - now rewrite F. }
  split; [cbn [world s1 render file_label]; now rewrite Hs|].
  split.
  { unfold step. cbn [world s1]. rewrite Hl.
    rewrite (dispatch_accepted _ clk' _ R). reflexivity. }
  split.
  { cbn [world trace]. rewrite requests_app. cbn [requests].
    rewrite Hr. cbn [world s0 trace]. rewrite requests_snoc, app_nil_r.
    reflexivity. }
  cbn [body]. unfold build_formData. cbn [world s1]. rewrite Hs. cbn.
  now destruct (truthy (trim _)).
Qed.

Lemma X10_witness_waiting :
  inflight waiting =
    [mkRequest "http://localhost:5000/chat" "POST"
       [("message", FormString "hi")]] /\
  exists s1,
    steps [ChooseFile [xray]; Settle empty_object (mkClock 2 2)] waiting =
      Some s1 /\
    file_label (render (react (world s1))) = Some "xray.png".
Proof.
  split; [reflexivity|].
  destruct (X10_file_chosen_in_flight_is_sent waiting xray []
              empty_object (mkClock 2 2) (mkClock 3 3) _ _ eq_refl)
    as (s1 & _ & _ & H1 & _ & H2 & _).
  exists s1. split; [exact H1 | exact H2].
Defined.
